(** * voxblox: layer persistence (io/layer_io.h) and skeleton parameters

    A shallow embedding of [LoadLayer], [LoadOrCreateLayerHeader],
    [LoadBlocksFromFile] and [SaveLayer] of
    [voxblox/include/voxblox/io/layer_io.h], and of the parameter
    accessors that [class SkeletonGenerator] defines inline in
    [voxblox/include/voxblox/skeletons/skeleton_generator.h].

    The header [layer_io.h] is written against code that lives in other
    files of the repository ([utils/protobuf_utils.h], [core/layer.h], the
    generated protobuf classes).  Those pieces are collected in the
    interface [ProtoIO]; the functions of the header are defined once, over
    any implementation of the interface, and the results about them hold
    for every implementation.  A concrete implementation that follows the
    file layout of the design document is given in [Module Model]; it is
    used to run the functions on explicit files. *)

From Stdlib Require Import QArith Qcanon Qround.
From stdpp Require Import gmap strings list.

(* ===================================================================== *)
(** * Part I : definitions                                                *)
(* ===================================================================== *)

(** ** glog checks

    [CHECK], [CHECK_NOTNULL]: a failed check aborts the process.  A call
    either returns a value or dies in a check. *)

Inductive outcome (A : Type) : Type :=
| Returns (a : A)
| CheckFailed.

Arguments Returns {A} a.
Arguments CheckFailed {A}.

(** Modelled from the spec: [Layer<VoxelType>::BlockMergingStrategy] is
    declared in [core/layer.h]; [layer_io.h] names [kProhibit] and passes
    the others through.  The members are the three of section 4.1:
    Prohibit, Replace, Merge. *)

Inductive BlockMergingStrategy : Type :=
| kProhibit
| kReplace
| kMerge.

(** The calls a loader makes on its [std::fstream], in program order. *)

Inductive ReadEvent : Type :=
| ReadCount      (* utils::readProtoMsgCountToStream                    *)
| ReadLayerMsg   (* utils::readProtoMsgFromStream into a layer header   *)
| ReadBlockMsg.  (* utils::readProtoMsgFromStream into a block message  *)

#[global] Instance ReadEvent_eq_dec : EqDecision ReadEvent.
Proof. solve_decision. Defined.

(** ** What [layer_io.h] takes from the rest of the repository

    - [fstream_open p] is the stream after [proto_file.open(p, in)];
      [is_open] is [std::fstream::is_open].
    - the three readers take the stream and give the stream after the call
      and the message read, [None] when the call returns [false].  Their
      third argument, the byte offset, is an output the header never uses
      ("Unused byte offset result") and is left out.
    - a [uint32_t] message count is an [N] (below [2^32]).  The only
      arithmetic the header does on it is [num_protos - 1], guarded by
      [num_protos == 0u], so no wrap-around can occur.
    - [Layer_of_proto] is the constructor [Layer(const LayerProto&)],
      [Layer_of_params] the constructor [Layer(voxel_size, voxels_per_side)].
    - [isCompatible] is a [const] method: it reads the layer only.
    - [addBlockFromProto] mutates the layer: it gives the layer after the
      call together with the returned [bool]. *)

Class ProtoIO : Type := {
  FloatingPoint : Type;
  LayerProto : Type;
  BlockProto : Type;
  Layer : Type;
  fstream : Type;
  fstream_open : string -> fstream;
  is_open : fstream -> bool;
  readProtoMsgCountToStream : fstream -> fstream * option N;
  readLayerProtoMsgFromStream : fstream -> fstream * option LayerProto;
  readBlockProtoMsgFromStream : fstream -> fstream * option BlockProto;
  Layer_of_proto : LayerProto -> Layer;
  Layer_of_params : FloatingPoint -> N -> Layer;
  isCompatible : Layer -> LayerProto -> bool;
  addBlockFromProto :
    BlockProto -> BlockMergingStrategy -> Layer -> Layer * bool
}.

(** [Layer<VoxelType>::Ptr] is a [std::shared_ptr]: [None] is the null
    pointer.  [aligned_shared] and [std::make_shared] allocate a new object
    and never give a null pointer. *)

Definition Ptr `{ProtoIO} : Type := option Layer.

Definition aligned_shared `{ProtoIO} (l : Layer) : Ptr := Some l.

Definition make_shared `{ProtoIO} (l : Layer) : Ptr := Some l.

(** ** The block loop

    [LoadLayer] (lines 58-74) and [LoadBlocksFromFile] (lines 186-201) end
    with the same loop:
<<
    for (uint32_t block_idx = 0u; block_idx < num_blocks; ++block_idx) {
      if (!readProtoMsgFromStream(&proto_file, &block_proto, ..)) return false;
      if (!layer->addBlockFromProto(block_proto, strategy))       return false;
    }
    return true;
>>
    [remaining] is [num_blocks - block_idx].  The result is the returned
    [bool], the layer as the loop leaves it, and the reads it made. *)

Fixpoint read_blocks `{ProtoIO} (strategy : BlockMergingStrategy)
    (remaining : nat) (proto_file : fstream) (layer : Layer)
    : bool * Layer * list ReadEvent :=
  match remaining with
  | O => (true, layer, [])
  | S remaining' =>
      match readBlockProtoMsgFromStream proto_file with
      | (_, None) => (false, layer, [ReadBlockMsg])
      | (proto_file', Some block_proto) =>
          match addBlockFromProto block_proto strategy layer with
          | (layer', false) => (false, layer', [ReadBlockMsg])
          | (layer', true) =>
              let '(ok, layer'', tr) :=
                read_blocks strategy remaining' proto_file' layer' in
              (ok, layer'', ReadBlockMsg :: tr)
          end
      end
  end.

(** ** [LoadLayer] (lines 19-77)

    [layer_ptr] is a pointer to the caller's [Layer::Ptr]: [None] is a null
    [layer_ptr], [Some slot] points to a slot that holds [slot].  The result
    is the returned [bool], the content of the caller's slot at return, and
    the reads made on the file. *)

Definition LoadLayer `{ProtoIO} (file_path : string) (layer_ptr : option Ptr)
    : outcome (bool * Ptr * list ReadEvent) :=
  match layer_ptr with
  | None => CheckFailed                                   (* CHECK_NOTNULL *)
  | Some slot =>
      let proto_file := fstream_open file_path in
      if negb (is_open proto_file) then Returns (false, slot, [])
      else
        match readProtoMsgCountToStream proto_file with
        | (_, None) => Returns (false, slot, [ReadCount])
        | (proto_file, Some num_protos) =>
            if (num_protos =? 0)%N then Returns (false, slot, [ReadCount])
            else
              match readLayerProtoMsgFromStream proto_file with
              | (_, None) => Returns (false, slot, [ReadCount; ReadLayerMsg])
              | (proto_file, Some layer_proto) =>
                  (* the slot is assigned here, before any block is read *)
                  let slot := aligned_shared (Layer_of_proto layer_proto) in
                  match slot with
                  | None => CheckFailed                (* CHECK on the slot *)
                  | Some layer =>
                      let num_blocks := (num_protos - 1)%N in
                      let '(ok, layer, tr) :=
                        read_blocks kProhibit (N.to_nat num_blocks)
                                    proto_file layer in
                      Returns (ok, Some layer, ReadCount :: ReadLayerMsg :: tr)
                  end
              end
        end
  end.

(** ** [LoadOrCreateLayerHeader] (lines 83-137)

    The function keeps a flag [success]; every step is guarded by
    [!success || ...], so a step is skipped once the flag is down.
    [num_protos] and [layer_proto] are uninitialised ([None]) until their
    read succeeds; they are looked at only while the flag is up. *)

Definition LoadOrCreateLayerHeader `{ProtoIO} (file_path : string)
    (voxel_size : FloatingPoint) (voxels_per_side : N)
    : outcome Ptr * list ReadEvent :=
  let success := true in
  let proto_file := fstream_open file_path in
  let success :=
    if negb success || negb (is_open proto_file) then false else success in
  let '(proto_file, num_protos, success, tr1) :=
    if negb success then (proto_file, None, false, [])
    else match readProtoMsgCountToStream proto_file with
         | (f, None) => (f, None, false, [ReadCount])
         | (f, Some n) => (f, Some n, success, [ReadCount])
         end in
  let success :=
    if negb success then false
    else match num_protos with
         | Some n => if (n =? 0)%N then false else success
         | None => success
         end in
  let '(proto_file, layer_proto, success, tr2) :=
    if negb success then (proto_file, None, false, [])
    else match readLayerProtoMsgFromStream proto_file with
         | (f, None) => (f, None, false, [ReadLayerMsg])
         | (f, Some p) => (f, Some p, success, [ReadLayerMsg])
         end in
  let layer_ptr : Ptr :=
    match success, layer_proto with
    | true, Some p => aligned_shared (Layer_of_proto p)
    | _, _ => make_shared (Layer_of_params voxel_size voxels_per_side)
    end in
  match layer_ptr with
  | None => (CheckFailed, tr1 ++ tr2)                    (* CHECK(layer_ptr) *)
  | Some _ => (Returns layer_ptr, tr1 ++ tr2)
  end.

(** ** [LoadBlocksFromFile] (lines 139-203)

    [layer_ptr] is a plain [Layer<VoxelType>*]: [None] is the null pointer,
    [Some layer] points to the caller's layer.  The result is the returned
    [bool], the caller's layer at return, and the reads made on the file. *)

Definition LoadBlocksFromFile `{ProtoIO} (file_path : string)
    (strategy : BlockMergingStrategy) (layer_ptr : option Layer)
    : outcome (bool * Layer * list ReadEvent) :=
  match layer_ptr with
  | None => CheckFailed                                   (* CHECK_NOTNULL *)
  | Some layer =>
      let proto_file := fstream_open file_path in
      if negb (is_open proto_file) then Returns (false, layer, [])
      else
        match readProtoMsgCountToStream proto_file with
        | (_, None) => Returns (false, layer, [ReadCount])
        | (proto_file, Some num_protos) =>
            if (num_protos =? 0)%N then Returns (false, layer, [ReadCount])
            else
              match readLayerProtoMsgFromStream proto_file with
              | (_, None) => Returns (false, layer, [ReadCount; ReadLayerMsg])
              | (proto_file, Some layer_proto) =>
                  if negb (isCompatible layer layer_proto)
                  then Returns (false, layer, [ReadCount; ReadLayerMsg])
                  else
                    let num_blocks := (num_protos - 1)%N in
                    let '(ok, layer, tr) :=
                      read_blocks strategy (N.to_nat num_blocks)
                                  proto_file layer in
                    Returns (ok, layer, ReadCount :: ReadLayerMsg :: tr)
              end
        end
  end.

(** ** Reading a run of blocks

    [blocks_added strategy f l k f' l']: from the stream [f] and the layer
    [l], the next [k] block messages are each read and inserted with
    success, which leaves the stream [f'] and the layer [l']. *)

Inductive blocks_added `{ProtoIO} (strategy : BlockMergingStrategy)
    : fstream -> Layer -> nat -> fstream -> Layer -> Prop :=
| blocks_added_O f l :
    blocks_added strategy f l 0 f l
| blocks_added_S f l f1 block_proto l1 k f' l' :
    readBlockProtoMsgFromStream f = (f1, Some block_proto) ->
    addBlockFromProto block_proto strategy l = (l1, true) ->
    blocks_added strategy f1 l1 k f' l' ->
    blocks_added strategy f l (S k) f' l'.

(** [block_fails strategy f l l']: from the stream [f] and the layer [l] the
    next block message cannot be read (the layer stays [l]), or it is read
    and [addBlockFromProto] refuses it, leaving the layer [l']. *)

Definition block_fails `{ProtoIO} (strategy : BlockMergingStrategy)
    (f : fstream) (l l' : Layer) : Prop :=
  ((readBlockProtoMsgFromStream f).2 = None /\ l' = l) \/
  (exists f1 block_proto,
      readBlockProtoMsgFromStream f = (f1, Some block_proto) /\
      addBlockFromProto block_proto strategy l = (l', false)).

(* ===================================================================== *)
(** ** A file system and a layer that follow the design document          *)
(* ===================================================================== *)

Module Model.

(** Modelled from the spec: the classes of [core/layer.h], [core/block.h]
    and the readers and writers of [utils/protobuf_utils.h] are not part of
    the two headers at hand.  The definitions below follow sections 3, 4.1
    and 6 of the design document:
    - a block coordinate is three integers, unique per layer;
    - a block is a dense voxel array plus the block's world origin;
    - a layer maps block coordinates to blocks and carries the metadata
      voxel_size, voxels_per_side, voxel_kind; two sets of metadata are
      compatible iff the three are equal;
    - a file is a message count followed by messages: a header message
      with the metadata, then block messages with a block coordinate, the
      block origin and the voxel payload.  The wire format is opaque: a
      message is what it decodes to, or malformed.
    The model is generic in the number type [Fp] of voxel sizes, in the
    type [Point] of origins and in the voxel kind [Voxel]; it only stores
    and compares them. *)

Definition BlockCoordinate : Type := Z * Z * Z.

Section spec_model.

Context {Fp Point Voxel : Type} `{!EqDecision Fp}.

(** [mergeWith] of the voxel kind, and the kind's name. *)
Variable merge_voxel : Voxel -> Voxel -> Voxel.
Variable kind_of_VoxelType : string.

Record Metadata : Type := {
  voxel_size : Fp;
  voxels_per_side : N;
  voxel_kind : string
}.

#[global] Instance Metadata_eq_dec : EqDecision Metadata.
Proof. solve_decision. Defined.

Record Block : Type := {
  origin : Point;
  voxels : list Voxel
}.

Record BlockMessage : Type := {
  coordinate : BlockCoordinate;
  block_of : Block
}.

Record SparseLayer : Type := {
  metadata : Metadata;
  block_map : gmap BlockCoordinate Block
}.

Inductive Message : Type :=
| MsgHeader (h : Metadata)
| MsgBlock (b : BlockMessage)
| MsgMalformed.

Inductive Token : Type :=
| TCount (n : N)
| TMsg (m : Message).

(** The file system: the files that can be opened for reading. *)
Definition Disk : Type := gmap string (list Token).

(** A stream is [None] when the file could not be opened, otherwise the
    part of the file that is still to be read. *)
Definition stream : Type := option (list Token).

Definition read_count (s : stream) : stream * option N :=
  match s with
  | Some (TCount n :: rest) => (Some rest, Some n)
  | _ => (s, None)
  end.

Definition read_header (s : stream) : stream * option Metadata :=
  match s with
  | Some (TMsg (MsgHeader h) :: rest) => (Some rest, Some h)
  | Some (_ :: rest) => (Some rest, None)
  | _ => (s, None)
  end.

Definition read_block (s : stream) : stream * option BlockMessage :=
  match s with
  | Some (TMsg (MsgBlock b) :: rest) => (Some rest, Some b)
  | Some (_ :: rest) => (Some rest, None)
  | _ => (s, None)
  end.

Definition with_block (c : BlockCoordinate) (b : Block) (l : SparseLayer)
    : SparseLayer :=
  {| metadata := metadata l; block_map := <[c := b]> (block_map l) |}.

Definition merge_block (old new : Block) : Block :=
  {| origin := origin old;
     voxels := zip_with merge_voxel (voxels old) (voxels new) |}.

(** Modelled from the spec: [Layer::addBlockFromProto] (section 4.1):
    Prohibit fails on an existing key, Replace overwrites, Merge combines
    voxel-wise. *)
Definition add_block (b : BlockMessage) (strategy : BlockMergingStrategy)
    (l : SparseLayer) : SparseLayer * bool :=
  match strategy, block_map l !! coordinate b with
  | kProhibit, Some _ => (l, false)
  | kMerge, Some old =>
      (with_block (coordinate b) (merge_block old (block_of b)) l, true)
  | _, _ => (with_block (coordinate b) (block_of b) l, true)
  end.

(** Modelled from the spec: the implementation of [ProtoIO] by the
    definitions above.  A layer made from a header takes its metadata and
    has no block; a layer made from parameters has the kind of the voxel
    type; [isCompatible] is equality of the three metadata fields. *)
Definition io (disk : Disk) : ProtoIO := {|
  FloatingPoint := Fp;
  LayerProto := Metadata;
  BlockProto := BlockMessage;
  Layer := SparseLayer;
  fstream := stream;
  fstream_open := fun file_path => disk !! file_path;
  is_open := fun s => bool_decide (is_Some s);
  readProtoMsgCountToStream := read_count;
  readLayerProtoMsgFromStream := read_header;
  readBlockProtoMsgFromStream := read_block;
  Layer_of_proto := fun h => {| metadata := h; block_map := ∅ |};
  Layer_of_params := fun voxel_size voxels_per_side =>
    {| metadata := {| voxel_size := voxel_size;
                      voxels_per_side := voxels_per_side;
                      voxel_kind := kind_of_VoxelType |};
       block_map := ∅ |};
  isCompatible := fun l h => bool_decide (metadata l = h);
  addBlockFromProto := add_block
|}.

(** The block message written for an entry of the block map. *)
Definition block_token (cb : BlockCoordinate * Block) : Token :=
  TMsg (MsgBlock {| coordinate := cb.1; block_of := cb.2 |}).

(** Modelled from the spec: the encoding of the voxel kind.  Section 6: a
    block message carries "one record per voxel per the voxel kind's own
    encoding"; section 9: a voxel kind brings encode and decode.  [Wire] is
    the type of the records.  A token stands for what a written message
    decodes to, so a block that went through a file has the voxels that
    [decode_voxel] gives for the records that [encode_voxel] wrote.  Block
    coordinates, origins and the metadata are carried as they are. *)
Context {Wire : Type}.
Variable encode_voxel : Voxel -> Wire.
Variable decode_voxel : Wire -> Voxel.

Definition through_wire (b : Block) : Block :=
  {| origin := origin b;
     voxels := (fun v => decode_voxel (encode_voxel v)) <$> voxels b |}.

(** Whether a path can be opened for writing. *)
Variable writable : string -> bool.

(** The value a [u32] field holds for a number. *)
Definition u32 (n : N) : N := (n mod 2 ^ 32)%N.

(** Modelled from the spec: [Layer::saveToFile] is not part of the two
    headers.  Section 4.1: [saveLayer] returns a [bool] and writes "a header
    message followed by one message per selected block, each
    length-delimited, preceded by a total message count", selecting all
    resident blocks.  Section 7: a stream that cannot be opened is an
    IoError, reported by the returned [false]; nothing is written then.
    Section 6: the count field is a [u32]. *)
Definition saveToFile (layer : SparseLayer) (file_path : string)
    (disk : Disk) : bool * Disk :=
  if negb (writable file_path) then (false, disk)
  else
    let blocks := map_to_list (block_map layer) in
    let num_messages := u32 (1 + N.of_nat (length blocks)) in
    (true,
     <[file_path :=
         TCount num_messages :: TMsg (MsgHeader (metadata layer))
           :: (block_token <$> (prod_map id through_wire <$> blocks))]>
       disk).

(** [SaveLayer] (lines 205-208). *)
Definition SaveLayer (layer : SparseLayer) (file_path : string)
    (disk : Disk) : bool * Disk :=
  saveToFile layer file_path disk.

End spec_model.

Arguments Metadata : clear implicits.
Arguments Block : clear implicits.
Arguments BlockMessage : clear implicits.
Arguments SparseLayer : clear implicits.
Arguments Message : clear implicits.
Arguments Token : clear implicits.
Arguments Disk : clear implicits.
Arguments stream : clear implicits.

End Model.

(* ===================================================================== *)
(** ** A small ESDF map on disk                                           *)
(* ===================================================================== *)

Module Fixture.

Import Model.

(** [EsdfVoxel]: a signed distance and an observed flag.  Distances and
    voxel sizes of the fixture are rationals. *)
Record EsdfVoxel : Type := {
  distance : Qc;
  observed : bool
}.

Definition Point : Type := Qc * Qc * Qc.

Definition merge_esdf (old new : EsdfVoxel) : EsdfVoxel :=
  if observed new then new else old.

Definition esdf_io (disk : Disk Qc Point EsdfVoxel) : ProtoIO :=
  Model.io merge_esdf "esdf" disk.

Definition fine : Qc := Q2Qc 0.1.
Definition coarse : Qc := Q2Qc 0.2.

Definition esdf_metadata (size : Qc) : Metadata Qc :=
  {| voxel_size := size; voxels_per_side := 2; voxel_kind := "esdf" |}.

Definition free_space (d : Qc) : Block Point EsdfVoxel :=
  {| origin := (0, 0, 0)%Qc;
     voxels := replicate 8 {| distance := d; observed := true |} |}.

Definition block_a : BlockMessage Point EsdfVoxel :=
  {| coordinate := (0, 0, 0)%Z; block_of := free_space (Q2Qc 0.4) |}.

Definition block_b : BlockMessage Point EsdfVoxel :=
  {| coordinate := (1, 0, 0)%Z; block_of := free_space (Q2Qc 0.7) |}.

(** A second block message for the coordinate of [block_a]. *)
Definition block_a_again : BlockMessage Point EsdfVoxel :=
  {| coordinate := (0, 0, 0)%Z; block_of := free_space (Q2Qc 0.9) |}.

Definition header (size : Qc) : Token Qc Point EsdfVoxel :=
  TMsg (MsgHeader (esdf_metadata size)).

Definition block (b : BlockMessage Point EsdfVoxel)
    : Token Qc Point EsdfVoxel :=
  TMsg (MsgBlock b).

(** The files of the fixture.  [two_blocks] is well formed; [truncated]
    announces two blocks and has a malformed second one; [duplicate]
    announces three blocks, the third repeating the coordinate of the
    first; [coarse_map] has another voxel size; [no_messages] has a zero
    count.  No other path can be opened. *)
Definition disk : Disk Qc Point EsdfVoxel :=
  {[ "two_blocks.vxblx" :=
       [TCount 3; header fine; block block_a; block block_b];
     "truncated.vxblx" :=
       [TCount 3; header fine; block block_a; TMsg MsgMalformed];
     "duplicate.vxblx" :=
       [TCount 4; header fine; block block_a; block block_b;
        block block_a_again];
     "coarse_map.vxblx" :=
       [TCount 2; header coarse; block block_a];
     "no_messages.vxblx" :=
       [TCount 0] ]}.

Definition empty_layer : SparseLayer Qc Point EsdfVoxel :=
  {| metadata := esdf_metadata fine; block_map := ∅ |}.

Definition layer_a : SparseLayer Qc Point EsdfVoxel :=
  with_block (0, 0, 0)%Z (free_space (Q2Qc 0.4)) empty_layer.

Definition layer_ab : SparseLayer Qc Point EsdfVoxel :=
  with_block (1, 0, 0)%Z (free_space (Q2Qc 0.7)) layer_a.

End Fixture.

(* ===================================================================== *)
(** ** What a call read, and two more files                               *)
(* ===================================================================== *)

(** The reads of a call that ends in a tuple with the list of its reads; a
    call that dies in its first check has read nothing. *)
Definition reads_of {A : Type} (o : outcome (A * list ReadEvent))
    : list ReadEvent :=
  match o with
  | Returns r => r.2
  | CheckFailed => []
  end.

(** [LoadBlocksFromFile] gives back a layer, [LoadLayer] a slot that holds
    one: the first seen from the caller of the second. *)
Definition in_slot `{ProtoIO} (o : outcome (bool * Layer * list ReadEvent))
    : outcome (bool * Ptr * list ReadEvent) :=
  match o with
  | Returns (ok, layer, tr) => Returns (ok, Some layer, tr)
  | CheckFailed => CheckFailed
  end.

Module MoreFixture.

Import Model Fixture.

(** [header_only] has a count of one and the header alone; [long_tail]
    announces one block and carries a second one after it. *)
Definition more_files : Disk Qc Point EsdfVoxel :=
  {[ "header_only.vxblx" := [TCount 1; header fine];
     "long_tail.vxblx" :=
       [TCount 2; header fine; block block_a; block block_b] ]}.

End MoreFixture.

Module CodecFixture.

Import Model Fixture.

(** A lossy encoding of [EsdfVoxel]: the distance is stored as a whole
    number of 1/1024, rounded down, the flag as it is. *)
Definition Wire : Type := Z * bool.

Definition encode (v : EsdfVoxel) : Wire :=
  (Qfloor (distance v * 1024), observed v).

Definition decode (w : Wire) : EsdfVoxel :=
  {| distance := Q2Qc (inject_Z w.1 / 1024); observed := w.2 |}.





Definition no_path (file_path : string) : bool := false.


End CodecFixture.

(* ===================================================================== *)
(** ** The parameters of the skeleton generator                           *)
(* ===================================================================== *)

Module Generator.

Section generator.

(** The member types that [skeleton_generator.h] takes from other headers
    ([float] stands for the C++ [float]; an [int] is a [Z], the accessors
    do no arithmetic on it). *)
Context {float Skeleton SparseSkeletonGraph VoxelTemplateMatcher
         NeighborTools EsdfLayerPtr SkeletonLayerPtr : Type}.

(** The private members of [class SkeletonGenerator] (lines 82-110). *)
Record SkeletonGenerator : Type := {
  min_separation_angle_ : float;
  esdf_voxels_per_side_ : Z;
  generate_by_layer_neighbors_ : bool;
  num_neighbors_for_edge_ : Z;
  vertex_pruning_radius_ : float;
  pruning_template_matcher_ : VoxelTemplateMatcher;
  corner_template_matcher_ : VoxelTemplateMatcher;
  neighbor_tools_ : NeighborTools;
  skeleton_ : Skeleton;
  esdf_layer_ : EsdfLayerPtr;
  skeleton_layer_ : SkeletonLayerPtr;
  graph_ : SparseSkeletonGraph
}.

(** The accessors defined in the class body (lines 41-63). *)
Definition getSkeleton (g : SkeletonGenerator) : Skeleton := skeleton_ g.

Definition getSparseGraph (g : SkeletonGenerator) : SparseSkeletonGraph :=
  graph_ g.

Definition getMinSeparationAngle (g : SkeletonGenerator) : float :=
  min_separation_angle_ g.

Definition setMinSeparationAngle (min_separation_angle : float)
    (g : SkeletonGenerator) : SkeletonGenerator :=
  {| min_separation_angle_ := min_separation_angle;
     esdf_voxels_per_side_ := esdf_voxels_per_side_ g;
     generate_by_layer_neighbors_ := generate_by_layer_neighbors_ g;
     num_neighbors_for_edge_ := num_neighbors_for_edge_ g;
     vertex_pruning_radius_ := vertex_pruning_radius_ g;
     pruning_template_matcher_ := pruning_template_matcher_ g;
     corner_template_matcher_ := corner_template_matcher_ g;
     neighbor_tools_ := neighbor_tools_ g;
     skeleton_ := skeleton_ g;
     esdf_layer_ := esdf_layer_ g;
     skeleton_layer_ := skeleton_layer_ g;
     graph_ := graph_ g |}.

Definition getGenerateByLayerNeighbors (g : SkeletonGenerator) : bool :=
  generate_by_layer_neighbors_ g.

Definition setGenerateByLayerNeighbors (generate_by_layer_neighbors : bool)
    (g : SkeletonGenerator) : SkeletonGenerator :=
  {| min_separation_angle_ := min_separation_angle_ g;
     esdf_voxels_per_side_ := esdf_voxels_per_side_ g;
     generate_by_layer_neighbors_ := generate_by_layer_neighbors;
     num_neighbors_for_edge_ := num_neighbors_for_edge_ g;
     vertex_pruning_radius_ := vertex_pruning_radius_ g;
     pruning_template_matcher_ := pruning_template_matcher_ g;
     corner_template_matcher_ := corner_template_matcher_ g;
     neighbor_tools_ := neighbor_tools_ g;
     skeleton_ := skeleton_ g;
     esdf_layer_ := esdf_layer_ g;
     skeleton_layer_ := skeleton_layer_ g;
     graph_ := graph_ g |}.

Definition getNumNeighborsForEdge (g : SkeletonGenerator) : Z :=
  num_neighbors_for_edge_ g.

Definition setNumNeighborsForEdge (num_neighbors_for_edge : Z)
    (g : SkeletonGenerator) : SkeletonGenerator :=
  {| min_separation_angle_ := min_separation_angle_ g;
     esdf_voxels_per_side_ := esdf_voxels_per_side_ g;
     generate_by_layer_neighbors_ := generate_by_layer_neighbors_ g;
     num_neighbors_for_edge_ := num_neighbors_for_edge;
     vertex_pruning_radius_ := vertex_pruning_radius_ g;
     pruning_template_matcher_ := pruning_template_matcher_ g;
     corner_template_matcher_ := corner_template_matcher_ g;
     neighbor_tools_ := neighbor_tools_ g;
     skeleton_ := skeleton_ g;
     esdf_layer_ := esdf_layer_ g;
     skeleton_layer_ := skeleton_layer_ g;
     graph_ := graph_ g |}.

(** A call of one of the three setters, and a run of such calls in
    program order. *)
Inductive SetterCall : Type :=
| CallSetMinSeparationAngle (min_separation_angle : float)
| CallSetGenerateByLayerNeighbors (generate_by_layer_neighbors : bool)
| CallSetNumNeighborsForEdge (num_neighbors_for_edge : Z).

Definition call (g : SkeletonGenerator) (c : SetterCall)
    : SkeletonGenerator :=
  match c with
  | CallSetMinSeparationAngle a => setMinSeparationAngle a g
  | CallSetGenerateByLayerNeighbors b => setGenerateByLayerNeighbors b g
  | CallSetNumNeighborsForEdge n => setNumNeighborsForEdge n g
  end.

Definition calls (cs : list SetterCall) (g : SkeletonGenerator)
    : SkeletonGenerator :=
  foldl call g cs.

(** The arguments a run of calls passed to each setter, in order. *)
Definition angles_set (cs : list SetterCall) : list float :=
  omap (fun c => match c with
                 | CallSetMinSeparationAngle a => Some a | _ => None end) cs.

Definition flags_set (cs : list SetterCall) : list bool :=
  omap (fun c => match c with
                 | CallSetGenerateByLayerNeighbors b => Some b
                 | _ => None end) cs.

Definition counts_set (cs : list SetterCall) : list Z :=
  omap (fun c => match c with
                 | CallSetNumNeighborsForEdge n => Some n | _ => None end) cs.

End generator.

Arguments SkeletonGenerator : clear implicits.
Arguments SetterCall : clear implicits.

End Generator.

(* ===================================================================== *)
(** * Part II : results                                                   *)
(* ===================================================================== *)

(** ** The block loop *)

Section block_loop.

Context `{ProtoIO}.

Implicit Types (strategy : BlockMergingStrategy) (f : fstream) (l : Layer).

(** A run of [k] good blocks is consumed by [k] turns of the loop, which
    then goes on from where the run ends. *)
Lemma read_blocks_added strategy f l k f' l' (more : nat) :
  blocks_added strategy f l k f' l' ->
  read_blocks strategy (k + more) f l =
    (let '(ok, l'', tr) := read_blocks strategy more f' l' in
     (ok, l'', replicate k ReadBlockMsg ++ tr)).
Proof.
  induction 1 as [f l | f l f1 bp l1 k f' l' Hread Hadd _ IH]; simpl.
  - by destruct (read_blocks strategy more f l) as [[ok l''] tr].
  - rewrite Hread, Hadd, IH.
    by destruct (read_blocks strategy more f' l') as [[ok l''] tr].
Qed.

(** A block that cannot be read or inserted ends the loop at once. *)
Lemma read_blocks_fails strategy f l l' (more : nat) :
  block_fails strategy f l l' ->
  read_blocks strategy (S more) f l = (false, l', [ReadBlockMsg]).
Proof.
  intros [[Hread ->] | (f1 & bp & Hread & Hadd)]; simpl.
  - destruct (readBlockProtoMsgFromStream f) as [f1 [bp|]]; by simplify_eq/=.
  - by rewrite Hread, Hadd.
Qed.

(** When the loop returns [true] it has made one read per turn, and every
    block was read and inserted. *)
Lemma read_blocks_true strategy (n : nat) f l l' tr :
  read_blocks strategy n f l = (true, l', tr) ->
  tr = replicate n ReadBlockMsg /\
  exists f', blocks_added strategy f l n f' l'.
Proof.
  revert f l l' tr.
  induction n as [|n IH]; intros f l l' tr; simpl.
  - intros [= <- <-]. split; [done|]. eexists. constructor.
  - destruct (readBlockProtoMsgFromStream f) as [f1 [bp|]] eqn:Hread;
      [|by intros [=]].
    destruct (addBlockFromProto bp strategy l) as [l1 [|]] eqn:Hadd;
      [|by intros [=]].
    destruct (read_blocks strategy n f1 l1) as [[ok l''] tr'] eqn:Hrest.
    intros [= -> -> <-].
    destruct (IH _ _ _ _ Hrest) as [-> [f' Hrun]].
    split; [done|]. exists f'. by econstructor.
Qed.

(** The loop stops at the first bad block: after [k] good blocks and one
    bad one, with at least [k + 1] blocks announced, it returns [false],
    has read [k + 1] block messages, and hands back the layer as the [k]
    insertions (and the failed one) left it. *)
Lemma read_blocks_stops strategy f l k f' l' l'' (num_blocks : nat) :
  blocks_added strategy f l k f' l' ->
  block_fails strategy f' l' l'' ->
  k < num_blocks ->
  read_blocks strategy num_blocks f l =
    (false, l'', replicate (S k) ReadBlockMsg).
Proof.
  intros Hrun Hfail Hlt.
  replace num_blocks with (k + S (num_blocks - S k)) by lia.
  rewrite (read_blocks_added _ _ _ _ _ _ _ Hrun).
  rewrite (read_blocks_fails _ _ _ _ _ Hfail).
  by rewrite replicate_S_end.
Qed.

End block_loop.

(** ** The loaders, over any implementation of [ProtoIO] *)

Section loaders.

Context `{ProtoIO}.

(** Closes [ReadBlockMsg ∉ tr] for an explicit [tr] without block reads. *)
Ltac no_block_read :=
  repeat (apply not_elem_of_cons; split; [discriminate|]);
  apply not_elem_of_nil.

(** C9.  When [LoadLayer] fails before the header message has been read
    with success (the file does not open, the message count cannot be
    read, the count is zero, or the header itself cannot be read) it
    returns [false] and the caller's slot holds what it held before the
    call; no block message has been read. *)
Theorem LoadLayer_early_failure_keeps_slot
    (file_path : string) (slot : Ptr) :
  let proto_file := fstream_open file_path in
  let count := readProtoMsgCountToStream proto_file in
  let header := readLayerProtoMsgFromStream count.1 in
  is_open proto_file = false \/ count.2 = None \/ count.2 = Some 0%N
    \/ header.2 = None ->
  exists tr,
    LoadLayer file_path (Some slot) = Returns (false, slot, tr) /\
    ReadBlockMsg ∉ tr.
Proof.
  intros proto_file count header Hfail. unfold LoadLayer.
  fold proto_file.
  destruct (is_open proto_file) eqn:Hopen; simpl.
  2: { eexists; split; [done|no_block_read]. }
  fold count. subst header.
  destruct count as [f1 [n|]]; simpl in *.
  2: { eexists; split; [done|no_block_read]. }
  destruct (n =? 0)%N eqn:Hn.
  { eexists; split; [done|no_block_read]. }
  destruct (readLayerProtoMsgFromStream f1) as [f2 [h|]]; simpl in *.
  2: { eexists; split; [done|no_block_read]. }
  apply N.eqb_neq in Hn.
  destruct Hfail as [?|[?|[?|?]]]; simplify_eq.
Qed.

(** C6.  When the file opens and its message count reads as zero,
    [LoadLayer] returns [false] having made the count read only: neither
    the header nor any block message is read, and the caller's slot is as
    before.  When [LoadLayer] returns [true], the count [n] it read is not
    zero and the reads it made are the count, the header, and exactly
    [n - 1] block messages. *)
Theorem LoadLayer_message_count (file_path : string) (slot : Ptr) :
  (forall f,
      is_open (fstream_open file_path) = true ->
      readProtoMsgCountToStream (fstream_open file_path) = (f, Some 0%N) ->
      LoadLayer file_path (Some slot) = Returns (false, slot, [ReadCount]))
  /\
  (forall slot' tr,
      LoadLayer file_path (Some slot) = Returns (true, slot', tr) ->
      exists f n,
        readProtoMsgCountToStream (fstream_open file_path) = (f, Some n) /\
        n <> 0%N /\
        tr = ReadCount :: ReadLayerMsg
               :: replicate (N.to_nat (n - 1)) ReadBlockMsg).
Proof.
  split.
  - intros f Hopen Hcount. unfold LoadLayer. by rewrite Hopen, Hcount.
  - intros slot' tr. unfold LoadLayer.
    destruct (is_open (fstream_open file_path)); simpl; [|by intros [=]].
    destruct (readProtoMsgCountToStream (fstream_open file_path))
      as [f1 [n|]]; [|by intros [=]].
    destruct (n =? 0)%N eqn:Hn; [by intros [=]|].
    destruct (readLayerProtoMsgFromStream f1) as [f2 [h|]]; [|by intros [=]].
    destruct (read_blocks kProhibit (N.to_nat (n - 1)) f2 (Layer_of_proto h))
      as [[ok l] tr'] eqn:Hloop.
    intros [= -> <- <-].
    apply read_blocks_true in Hloop as [-> _].
    exists f1, n. by apply N.eqb_neq in Hn.
Qed.

(** C2.  When the file opens, its count is not zero and its header is
    read, but [isCompatible] rejects the header, [LoadBlocksFromFile]
    returns [false], the caller's layer is the layer it was before the
    call, and no block message has been read. *)
Theorem LoadBlocksFromFile_incompatible_header
    (file_path : string) (strategy : BlockMergingStrategy) (layer : Layer)
    (f1 f2 : fstream) (n : N) (header : LayerProto) :
  is_open (fstream_open file_path) = true ->
  readProtoMsgCountToStream (fstream_open file_path) = (f1, Some n) ->
  n <> 0%N ->
  readLayerProtoMsgFromStream f1 = (f2, Some header) ->
  isCompatible layer header = false ->
  LoadBlocksFromFile file_path strategy (Some layer) =
    Returns (false, layer, [ReadCount; ReadLayerMsg]).
Proof.
  intros Hopen Hcount Hn Hheader Hcompat. unfold LoadBlocksFromFile.
  rewrite Hopen, Hcount. simpl.
  apply N.eqb_neq in Hn. rewrite Hn, Hheader, Hcompat. done.
Qed.

(** C4.  With a compatible header, if the first [k] block messages are
    read and inserted and the next one (one of the [n - 1] announced)
    cannot be read or is refused, [LoadBlocksFromFile] returns [false]; it
    has read [k + 1] block messages and none after the failing one; and the
    caller's layer is the layer the [k] insertions built, with nothing
    undone ([block_fails]: on a failed read the layer after the [k]
    insertions, on a refused insertion what [addBlockFromProto] made of
    it). *)
Theorem LoadBlocksFromFile_no_rollback
    (file_path : string) (strategy : BlockMergingStrategy) (layer : Layer)
    (f1 f2 f3 : fstream) (n : N) (header : LayerProto) (k : nat)
    (layer_k layer_end : Layer) :
  is_open (fstream_open file_path) = true ->
  readProtoMsgCountToStream (fstream_open file_path) = (f1, Some n) ->
  readLayerProtoMsgFromStream f1 = (f2, Some header) ->
  isCompatible layer header = true ->
  blocks_added strategy f2 layer k f3 layer_k ->
  k < N.to_nat (n - 1) ->
  block_fails strategy f3 layer_k layer_end ->
  LoadBlocksFromFile file_path strategy (Some layer) =
    Returns (false, layer_end,
             ReadCount :: ReadLayerMsg :: replicate (S k) ReadBlockMsg).
Proof.
  intros Hopen Hcount Hheader Hcompat Hrun Hlt Hfail.
  unfold LoadBlocksFromFile. rewrite Hopen, Hcount. simpl.
  assert ((n =? 0)%N = false) as -> by (apply N.eqb_neq; lia).
  rewrite Hheader, Hcompat. simpl.
  by rewrite (read_blocks_stops _ _ _ _ _ _ _ _ Hrun Hfail Hlt).
Qed.

(** C1 (as amended).  If the header is read, the first [k] block messages
    are read and inserted under [kProhibit], and the next one (one of the
    [n - 1] announced) cannot be read or is refused, [LoadLayer] returns
    [false], reads nothing after the failing message, and the caller's
    slot holds the layer built from the header with the [k] blocks in it. *)
Theorem LoadLayer_failure_leaves_partial_layer
    (file_path : string) (slot : Ptr)
    (f1 f2 f3 : fstream) (n : N) (header : LayerProto) (k : nat)
    (layer_k layer_end : Layer) :
  is_open (fstream_open file_path) = true ->
  readProtoMsgCountToStream (fstream_open file_path) = (f1, Some n) ->
  readLayerProtoMsgFromStream f1 = (f2, Some header) ->
  blocks_added kProhibit f2 (Layer_of_proto header) k f3 layer_k ->
  k < N.to_nat (n - 1) ->
  block_fails kProhibit f3 layer_k layer_end ->
  LoadLayer file_path (Some slot) =
    Returns (false, Some layer_end,
             ReadCount :: ReadLayerMsg :: replicate (S k) ReadBlockMsg).
Proof.
  intros Hopen Hcount Hheader Hrun Hlt Hfail.
  unfold LoadLayer. rewrite Hopen, Hcount. simpl.
  assert ((n =? 0)%N = false) as -> by (apply N.eqb_neq; lia).
  rewrite Hheader. simpl.
  by rewrite (read_blocks_stops _ _ _ _ _ _ _ _ Hrun Hfail Hlt).
Qed.

(** C3.  [LoadOrCreateLayerHeader] does not report a failure: when the
    file does not open, the count cannot be read, the count is zero, or
    the header cannot be read, it returns a layer made by
    [Layer(voxel_size, voxels_per_side)] from the caller's arguments. *)
Theorem LoadOrCreateLayerHeader_falls_back
    (file_path : string) (voxel_size : FloatingPoint) (voxels_per_side : N) :
  let proto_file := fstream_open file_path in
  let count := readProtoMsgCountToStream proto_file in
  let header := readLayerProtoMsgFromStream count.1 in
  is_open proto_file = false \/ count.2 = None \/ count.2 = Some 0%N
    \/ header.2 = None ->
  (LoadOrCreateLayerHeader file_path voxel_size voxels_per_side).1 =
    Returns (Some (Layer_of_params voxel_size voxels_per_side)).
Proof.
  intros proto_file count header Hfail. unfold LoadOrCreateLayerHeader.
  fold proto_file.
  destruct (is_open proto_file) eqn:Hopen; simpl; [|done].
  fold count. subst header.
  destruct count as [f1 [n|]]; simpl in *; [|done].
  destruct (n =? 0)%N eqn:Hn; simpl; [done|].
  destruct (readLayerProtoMsgFromStream f1) as [f2 [h|]]; simpl in *; [|done].
  apply N.eqb_neq in Hn.
  destruct Hfail as [?|[?|[?|?]]]; simplify_eq.
Qed.

(** C10.  [LoadOrCreateLayerHeader] always returns, and what it returns is
    not the null pointer: either the file opened, a non-zero count and the
    header were read, and the layer is made from that header; or one of
    these steps failed and the layer is made from the caller's
    [voxel_size] and [voxels_per_side]. *)
Theorem LoadOrCreateLayerHeader_not_null
    (file_path : string) (voxel_size : FloatingPoint) (voxels_per_side : N) :
  let proto_file := fstream_open file_path in
  let count := readProtoMsgCountToStream proto_file in
  let header := readLayerProtoMsgFromStream count.1 in
  exists layer,
    (LoadOrCreateLayerHeader file_path voxel_size voxels_per_side).1 =
      Returns (Some layer) /\
    ((exists n layer_proto,
         is_open proto_file = true /\ count.2 = Some n /\ n <> 0%N /\
         header.2 = Some layer_proto /\
         layer = Layer_of_proto layer_proto)
     \/
     ((is_open proto_file = false \/ count.2 = None \/ count.2 = Some 0%N
         \/ header.2 = None) /\
      layer = Layer_of_params voxel_size voxels_per_side)).
Proof.
  intros proto_file count header. unfold LoadOrCreateLayerHeader.
  fold proto_file.
  destruct (is_open proto_file) eqn:Hopen; simpl; [|eauto 10].
  fold count. subst header.
  destruct count as [f1 [n|]]; simpl in *; [|eauto 10].
  destruct (n =? 0)%N eqn:Hn; simpl.
  { apply N.eqb_eq in Hn as ->. eauto 10. }
  apply N.eqb_neq in Hn.
  destruct (readLayerProtoMsgFromStream f1) as [f2 [h|]]; simpl in *;
    [|eauto 10].
  eexists; split; [done|]. left. by exists n, h.
Qed.

End loaders.

(** ** Saving and loading back, on the file system of [Model] *)

Section save_load.

Import Model.

Context {Fp Point Voxel : Type} `{!EqDecision Fp}.
Variable merge_voxel : Voxel -> Voxel -> Voxel.
Variable kind_of_VoxelType : string.

#[local] Abbreviation io := (Model.io merge_voxel kind_of_VoxelType).
#[local] Abbreviation SparseLayer := (Model.SparseLayer Fp Point Voxel).
#[local] Abbreviation Disk := (Model.Disk Fp Point Voxel).
#[local] Abbreviation Token := (Model.Token Fp Point Voxel).



(** The encoding of the voxel kind, the paths that can be written, and
    the comparison of two voxels of the kind: equal, with floating
    distances within the fixed epsilon. *)
Context {Wire : Type}.
Variable encode_voxel : Voxel -> Wire.
Variable decode_voxel : Wire -> Voxel.
Variable writable : string -> bool.
Variable close : Voxel -> Voxel -> bool.

#[local] Abbreviation saveToFile :=
  (Model.saveToFile encode_voxel decode_voxel writable).
#[local] Abbreviation SaveLayer :=
  (Model.SaveLayer encode_voxel decode_voxel writable).
#[local] Abbreviation through_wire :=
  (Model.through_wire encode_voxel decode_voxel).

(** A path that cannot be written: nothing is saved and the file system
    is as before. *)
Lemma SaveLayer_not_writable (disk : Disk) (file_path : string)
    (layer : SparseLayer) :
  writable file_path = false ->
  SaveLayer layer file_path disk = (false, disk).
Proof. intros Hw. unfold Model.SaveLayer, Model.saveToFile. by rewrite Hw. Qed.





End save_load.

(** ** Saving and loading back, on explicit layers *)

Section round_trip_runs.

Import Model Fixture CodecFixture.



(** A path that cannot be written: [SaveLayer] returns [false] and there
    is nothing to load. *)
Example SaveLayer_no_path :
  SaveLayer encode decode no_path layer_ab "saved.vxblx" ∅ = (false, ∅) /\
  LoadLayer (H := esdf_io ∅) "saved.vxblx" (Some None) =
    Returns (false, None, []).
Proof. split; vm_compute; reflexivity. Qed.

(** The lossy encoding changes a distance of 0.4 to 409/1024. *)
Example decode_encode_lossy :
  decode (encode {| distance := Q2Qc 0.4; observed := true |}) =
    {| distance := Q2Qc (409 # 1024); observed := true |} /\
  Q2Qc 0.4 <> Q2Qc (409 # 1024).
Proof. split; [vm_compute; reflexivity | discriminate]. Qed.


End round_trip_runs.

(** ** The loaders on the files of [Fixture] *)

Section fixture_runs.

Import Model Fixture.

(** A well-formed file loads: count 3, a header and two blocks. *)
Example LoadLayer_two_blocks :
  LoadLayer (H := esdf_io disk) "two_blocks.vxblx" (Some None) =
    Returns (true, Some layer_ab,
             [ReadCount; ReadLayerMsg; ReadBlockMsg; ReadBlockMsg]).
Proof. vm_compute. reflexivity. Qed.

(** On the same file [LoadOrCreateLayerHeader] takes the metadata of the
    header, not the caller's, and reads no block. *)
Example LoadOrCreateLayerHeader_two_blocks :
  LoadOrCreateLayerHeader (H := esdf_io disk) "two_blocks.vxblx" coarse 4 =
    (Returns (Some empty_layer), [ReadCount; ReadLayerMsg]).
Proof. vm_compute. reflexivity. Qed.

(** Appending [duplicate.vxblx] to a layer that has [block_a]: refused at
    the first block under [kProhibit], accepted under [kReplace], which
    leaves the last block written for coordinate (0, 0, 0). *)
Example LoadBlocksFromFile_duplicate_prohibit :
  LoadBlocksFromFile (H := esdf_io disk) "duplicate.vxblx" kProhibit
                     (Some layer_a) =
    Returns (false, layer_a, [ReadCount; ReadLayerMsg; ReadBlockMsg]).
Proof. vm_compute. reflexivity. Qed.

Example LoadBlocksFromFile_duplicate_replace :
  LoadBlocksFromFile (H := esdf_io disk) "duplicate.vxblx" kReplace
                     (Some layer_a) =
    Returns (true,
             with_block (0, 0, 0)%Z (free_space (Q2Qc 0.9)) layer_ab,
             ReadCount :: ReadLayerMsg :: replicate 3 ReadBlockMsg).
Proof. vm_compute. reflexivity. Qed.

(** C1, counterexample.  [truncated.vxblx] has a readable count, header
    and first block, and a malformed second block.  [LoadLayer], called
    with a slot that holds the null pointer, returns [false], and the slot
    then holds a layer with one of the two announced blocks in it. *)
Lemma LoadLayer_truncated_file_counterexample :
  LoadLayer (H := esdf_io disk) "truncated.vxblx" (Some None) =
    Returns (false, Some layer_a,
             [ReadCount; ReadLayerMsg; ReadBlockMsg; ReadBlockMsg]) /\
  Some layer_a <> (None : option (SparseLayer Qc Point EsdfVoxel)) /\
  block_map layer_a !! (0, 0, 0)%Z = Some (free_space (Q2Qc 0.4)) /\
  size (block_map layer_a) = 1.
Proof.
  split; [vm_compute; reflexivity|].
  split; [discriminate|].
  split; vm_compute; reflexivity.
Qed.

(** C1, witness: on [truncated.vxblx] one block is inserted, the second
    message cannot be read, and the slot holds the layer with that one
    block. *)
Lemma LoadLayer_failure_leaves_partial_layer_witness :
  @is_open (esdf_io disk) (@fstream_open (esdf_io disk) "truncated.vxblx")
    = true /\
  (@readBlockProtoMsgFromStream (esdf_io disk)
     (Some [TMsg MsgMalformed])).2 = None /\
  LoadLayer (H := esdf_io disk) "truncated.vxblx" (Some None) =
    Returns (false, Some layer_a,
             ReadCount :: ReadLayerMsg :: replicate 2 ReadBlockMsg).
Proof.
  split; [reflexivity|]. split; [reflexivity|].
  eapply (@LoadLayer_failure_leaves_partial_layer (esdf_io disk)
            "truncated.vxblx" None _ _ (Some [TMsg MsgMalformed]) 3
            (esdf_metadata fine) 1 layer_a layer_a).
  - reflexivity.
  - reflexivity.
  - reflexivity.
  - eapply blocks_added_S; [reflexivity | reflexivity | apply blocks_added_O].
  - vm_compute. lia.
  - left. split; reflexivity.
Defined.

(** C2, witness: [coarse_map.vxblx] has voxel size 0.2, the target layer
    0.1; the target keeps its two blocks. *)
Lemma LoadBlocksFromFile_incompatible_header_witness :
  @isCompatible (esdf_io disk) layer_ab (esdf_metadata coarse) = false /\
  LoadBlocksFromFile (H := esdf_io disk) "coarse_map.vxblx" kReplace
                     (Some layer_ab) =
    Returns (false, layer_ab, [ReadCount; ReadLayerMsg]).
Proof.
  split; [reflexivity|].
  eapply (@LoadBlocksFromFile_incompatible_header (esdf_io disk)
            "coarse_map.vxblx" kReplace layer_ab _ _ 2
            (esdf_metadata coarse)).
  - reflexivity.
  - reflexivity.
  - discriminate.
  - reflexivity.
  - reflexivity.
Defined.

(** C3, witness: a path that cannot be opened and a file with a zero
    count both give the layer made from the caller's arguments. *)
Lemma LoadOrCreateLayerHeader_falls_back_witness :
  @is_open (esdf_io disk) (@fstream_open (esdf_io disk) "missing.vxblx")
    = false /\
  (LoadOrCreateLayerHeader (H := esdf_io disk) "missing.vxblx" coarse 4).1 =
    Returns (Some (@Layer_of_params (esdf_io disk) coarse 4)) /\
  (LoadOrCreateLayerHeader (H := esdf_io disk) "no_messages.vxblx" coarse 4).1
    = Returns (Some (@Layer_of_params (esdf_io disk) coarse 4)).
Proof.
  split; [reflexivity|]. split.
  - apply (@LoadOrCreateLayerHeader_falls_back (esdf_io disk)
             "missing.vxblx" coarse 4).
    left. reflexivity.
  - apply (@LoadOrCreateLayerHeader_falls_back (esdf_io disk)
             "no_messages.vxblx" coarse 4).
    right. right. left. reflexivity.
Defined.

(** C4, witness: on [duplicate.vxblx], under [kProhibit], two blocks are
    inserted into an empty target, the third is refused, and the target
    keeps the two. *)
Lemma LoadBlocksFromFile_no_rollback_witness :
  @addBlockFromProto (esdf_io disk) block_a_again kProhibit layer_ab
    = (layer_ab, false) /\
  LoadBlocksFromFile (H := esdf_io disk) "duplicate.vxblx" kProhibit
                     (Some empty_layer) =
    Returns (false, layer_ab,
             ReadCount :: ReadLayerMsg :: replicate 3 ReadBlockMsg) /\
  block_map layer_ab !! (0, 0, 0)%Z = Some (free_space (Q2Qc 0.4)) /\
  block_map layer_ab !! (1, 0, 0)%Z = Some (free_space (Q2Qc 0.7)).
Proof.
  split; [reflexivity|]. split; [|split; reflexivity].
  eapply (@LoadBlocksFromFile_no_rollback (esdf_io disk)
            "duplicate.vxblx" kProhibit empty_layer _ _
            (Some [block block_a_again]) 4 (esdf_metadata fine) 2
            layer_ab layer_ab).
  - reflexivity.
  - reflexivity.
  - reflexivity.
  - reflexivity.
  - eapply blocks_added_S; [reflexivity | reflexivity |].
    eapply blocks_added_S; [reflexivity | reflexivity |].
    apply blocks_added_O.
  - vm_compute. lia.
  - right. exists (Some []), block_a_again. split; reflexivity.
Defined.

(** C6, witness: [no_messages.vxblx] has a zero count; loading
    [two_blocks.vxblx] succeeds with count 3 and two block reads. *)
Lemma LoadLayer_message_count_witness :
  LoadLayer (H := esdf_io disk) "no_messages.vxblx" (Some None) =
    Returns (false, None, [ReadCount]) /\
  exists f n,
    @readProtoMsgCountToStream (esdf_io disk)
      (@fstream_open (esdf_io disk) "two_blocks.vxblx") = (f, Some n) /\
    n <> 0%N /\
    [ReadCount; ReadLayerMsg; ReadBlockMsg; ReadBlockMsg] =
      ReadCount :: ReadLayerMsg :: replicate (N.to_nat (n - 1)) ReadBlockMsg.
Proof.
  split.
  - eapply (proj1 (@LoadLayer_message_count (esdf_io disk)
                     "no_messages.vxblx" None)); reflexivity.
  - apply (proj2 (@LoadLayer_message_count (esdf_io disk)
                    "two_blocks.vxblx" None) (Some layer_ab)).
    vm_compute. reflexivity.
Defined.

(** C9, witness: a path that cannot be opened; the slot keeps the layer
    it held. *)
Lemma LoadLayer_early_failure_keeps_slot_witness :
  @is_open (esdf_io disk) (@fstream_open (esdf_io disk) "missing.vxblx")
    = false /\
  exists tr,
    LoadLayer (H := esdf_io disk) "missing.vxblx" (Some (Some layer_a)) =
      Returns (false, Some layer_a, tr) /\
    ReadBlockMsg ∉ tr.
Proof.
  split; [reflexivity|].
  apply (@LoadLayer_early_failure_keeps_slot (esdf_io disk)
           "missing.vxblx" (Some layer_a)).
  left. reflexivity.
Defined.

End fixture_runs.

(* ===================================================================== *)
(** * Part III : further results on the loaders                           *)
(* ===================================================================== *)

Section loop_cases.

Context `{ProtoIO}.

Implicit Types (strategy : BlockMergingStrategy) (f : fstream) (l : Layer).

(** A run of [n] good blocks makes the loop of [n] turns return [true]. *)
Lemma read_blocks_all_added strategy f l (n : nat) f' l' :
  blocks_added strategy f l n f' l' ->
  read_blocks strategy n f l = (true, l', replicate n ReadBlockMsg).
Proof.
  intros Hrun.
  replace n with (n + 0) at 1 by lia.
  rewrite (read_blocks_added _ _ _ _ _ _ 0 Hrun). simpl.
  by rewrite app_nil_r.
Qed.

(** When the loop returns [false], some block before the last announced
    one was the first to fail. *)
Lemma read_blocks_false strategy (n : nat) f l l' tr :
  read_blocks strategy n f l = (false, l', tr) ->
  exists k f_k l_k,
    k < n /\
    blocks_added strategy f l k f_k l_k /\
    block_fails strategy f_k l_k l' /\
    tr = replicate (S k) ReadBlockMsg.
Proof.
  revert f l l' tr.
  induction n as [|n IH]; intros f l l' tr; simpl; [by intros [=]|].
  destruct (readBlockProtoMsgFromStream f) as [f1 [bp|]] eqn:Hread.
  - destruct (addBlockFromProto bp strategy l) as [l1 [|]] eqn:Hadd.
    + destruct (read_blocks strategy n f1 l1) as [[ok l''] tr'] eqn:Hrest.
      intros [= -> -> <-].
      destruct (IH _ _ _ _ Hrest) as (k & f_k & l_k & Hk & Hrun & Hfail & ->).
      exists (S k), f_k, l_k. split; [lia|]. split; [by econstructor|].
      by split.
    + intros [= <- <-]. exists 0, f, l. split; [lia|].
      split; [constructor|]. split; [|done]. right. by exists f1, bp.
  - intros [= <- <-]. exists 0, f, l. split; [lia|].
    split; [constructor|]. split; [|done]. left. by rewrite Hread.
Qed.

(** The loop makes at most one block read per turn. *)
Lemma read_blocks_reads strategy (n : nat) f l :
  (read_blocks strategy n f l).2 `prefix_of` replicate n ReadBlockMsg.
Proof.
  revert f l. induction n as [|n IH]; intros f l; simpl; [done|].
  destruct (readBlockProtoMsgFromStream f) as [f1 [bp|]];
    [|apply prefix_cons, prefix_nil].
  destruct (addBlockFromProto bp strategy l) as [l1 [|]];
    [|apply prefix_cons, prefix_nil].
  specialize (IH f1 l1).
  destruct (read_blocks strategy n f1 l1) as [[ok l''] tr'].
  by apply prefix_cons.
Qed.

End loop_cases.

Section loaders_more.

Context `{ProtoIO}.

(** Closes [ReadBlockMsg ∉ tr] for an explicit [tr] without block reads. *)
Ltac without_block_read :=
  repeat (apply not_elem_of_cons; split; [discriminate|]);
  apply not_elem_of_nil.

(** X1.  [LoadLayer] returns [true] exactly when the file opens, a
    non-zero count [n] and the header are read, and each of the [n - 1]
    announced block messages is read and inserted under [kProhibit]; the
    caller's slot then holds the layer built from the header with these
    blocks, and the reads are the count, the header and [n - 1] blocks. *)
Theorem LoadLayer_true_iff (file_path : string) (slot slot' : Ptr)
    (tr : list ReadEvent) :
  LoadLayer file_path (Some slot) = Returns (true, slot', tr) <->
  exists f1 n f2 layer_proto f3 layer,
    is_open (fstream_open file_path) = true /\
    readProtoMsgCountToStream (fstream_open file_path) = (f1, Some n) /\
    n <> 0%N /\
    readLayerProtoMsgFromStream f1 = (f2, Some layer_proto) /\
    blocks_added kProhibit f2 (Layer_of_proto layer_proto)
                 (N.to_nat (n - 1)) f3 layer /\
    slot' = Some layer /\
    tr = ReadCount :: ReadLayerMsg
           :: replicate (N.to_nat (n - 1)) ReadBlockMsg.
Proof.
  unfold LoadLayer. split.
  - destruct (is_open (fstream_open file_path)); simpl; [|by intros [=]].
    destruct (readProtoMsgCountToStream (fstream_open file_path))
      as [f1 [n|]]; [|by intros [=]].
    destruct (n =? 0)%N eqn:Hn; [by intros [=]|].
    destruct (readLayerProtoMsgFromStream f1) as [f2 [h|]] eqn:Hh;
      [|by intros [=]].
    destruct (read_blocks kProhibit (N.to_nat (n - 1)) f2 (Layer_of_proto h))
      as [[ok l] tr'] eqn:Hloop.
    intros [= -> <- <-].
    apply read_blocks_true in Hloop as [-> [f3 Hrun]].
    apply N.eqb_neq in Hn.
    by exists f1, n, f2, h, f3, l.
  - intros (f1 & n & f2 & h & f3 & l & Hopen & Hcount & Hn & Hh & Hrun
            & -> & ->).
    rewrite Hopen, Hcount. simpl.
    apply N.eqb_neq in Hn. rewrite Hn, Hh. simpl.
    by rewrite (read_blocks_all_added _ _ _ _ _ _ Hrun).
Qed.

(** X2.  When [LoadLayer] returns [false] there are two cases.  Either it
    stopped before the slot was assigned (no open file, no count, a zero
    count or no header): the slot is as before and no block was read.  Or
    the header was read, [k] blocks were inserted, and block [k], one of
    the [n - 1] announced, failed: the slot holds the layer with these [k]
    blocks and [k + 1] blocks were read. *)
Theorem LoadLayer_false_cases (file_path : string) (slot slot' : Ptr)
    (tr : list ReadEvent) :
  LoadLayer file_path (Some slot) = Returns (false, slot', tr) ->
  (slot' = slot /\ (ReadBlockMsg ∉ tr) /\
   (is_open (fstream_open file_path) = false \/
    (readProtoMsgCountToStream (fstream_open file_path)).2 = None \/
    (readProtoMsgCountToStream (fstream_open file_path)).2 = Some 0%N \/
    (readLayerProtoMsgFromStream
       (readProtoMsgCountToStream (fstream_open file_path)).1).2 = None))
  \/
  (exists f1 n f2 layer_proto k f_k layer_k layer_end,
      readProtoMsgCountToStream (fstream_open file_path) = (f1, Some n) /\
      readLayerProtoMsgFromStream f1 = (f2, Some layer_proto) /\
      blocks_added kProhibit f2 (Layer_of_proto layer_proto) k f_k layer_k /\
      k < N.to_nat (n - 1) /\
      block_fails kProhibit f_k layer_k layer_end /\
      slot' = Some layer_end /\
      tr = ReadCount :: ReadLayerMsg :: replicate (S k) ReadBlockMsg).
Proof.
  unfold LoadLayer.
  destruct (is_open (fstream_open file_path)); simpl.
  2: { intros [= <- <-]. left. split; [done|].
       split; [without_block_read|]. by left. }
  destruct (readProtoMsgCountToStream (fstream_open file_path))
    as [f1 [n|]]; simpl.
  2: { intros [= <- <-]. left. split; [done|].
       split; [without_block_read|]. right. by left. }
  destruct (n =? 0)%N eqn:Hn.
  { intros [= <- <-]. apply N.eqb_eq in Hn as ->. left. split; [done|].
    split; [without_block_read|]. right. right. by left. }
  destruct (readLayerProtoMsgFromStream f1) as [f2 [h|]] eqn:Hh.
  2: { intros [= <- <-]. left. split; [done|].
       split; [without_block_read|]. right. right. right. done. }
  destruct (read_blocks kProhibit (N.to_nat (n - 1)) f2 (Layer_of_proto h))
    as [[ok l] tr'] eqn:Hloop.
  intros [= -> <- <-]. right.
  apply read_blocks_false in Hloop
    as (k & f_k & l_k & Hk & Hrun & Hfail & ->).
  by exists f1, n, f2, h, k, f_k, l_k, l.
Qed.

(** X3.  [LoadBlocksFromFile] returns [true] exactly when the file opens,
    a non-zero count [n] and a header that [isCompatible] accepts are
    read, and each of the [n - 1] announced block messages is read and
    inserted under the caller's strategy into the caller's layer. *)
Theorem LoadBlocksFromFile_true_iff (file_path : string)
    (strategy : BlockMergingStrategy) (layer layer' : Layer)
    (tr : list ReadEvent) :
  LoadBlocksFromFile file_path strategy (Some layer)
    = Returns (true, layer', tr) <->
  exists f1 n f2 layer_proto f3,
    is_open (fstream_open file_path) = true /\
    readProtoMsgCountToStream (fstream_open file_path) = (f1, Some n) /\
    n <> 0%N /\
    readLayerProtoMsgFromStream f1 = (f2, Some layer_proto) /\
    isCompatible layer layer_proto = true /\
    blocks_added strategy f2 layer (N.to_nat (n - 1)) f3 layer' /\
    tr = ReadCount :: ReadLayerMsg
           :: replicate (N.to_nat (n - 1)) ReadBlockMsg.
Proof.
  unfold LoadBlocksFromFile. split.
  - destruct (is_open (fstream_open file_path)); simpl; [|by intros [=]].
    destruct (readProtoMsgCountToStream (fstream_open file_path))
      as [f1 [n|]]; [|by intros [=]].
    destruct (n =? 0)%N eqn:Hn; [by intros [=]|].
    destruct (readLayerProtoMsgFromStream f1) as [f2 [h|]] eqn:Hh;
      [|by intros [=]].
    destruct (isCompatible layer h) eqn:Hcompat; simpl; [|by intros [=]].
    destruct (read_blocks strategy (N.to_nat (n - 1)) f2 layer)
      as [[ok l] tr'] eqn:Hloop.
    intros [= -> <- <-].
    apply read_blocks_true in Hloop as [-> [f3 Hrun]].
    apply N.eqb_neq in Hn.
    by exists f1, n, f2, h, f3.
  - intros (f1 & n & f2 & h & f3 & Hopen & Hcount & Hn & Hh & Hcompat
            & Hrun & ->).
    rewrite Hopen, Hcount. simpl.
    apply N.eqb_neq in Hn. rewrite Hn, Hh, Hcompat. simpl.
    by rewrite (read_blocks_all_added _ _ _ _ _ _ Hrun).
Qed.

(** X4.  When the file does not open, its count cannot be read, its count
    is zero, or its header cannot be read, [LoadBlocksFromFile] returns
    [false] with the caller's layer as it was, and reads no block. *)
Theorem LoadBlocksFromFile_early_failure_keeps_layer
    (file_path : string) (strategy : BlockMergingStrategy) (layer : Layer) :
  let proto_file := fstream_open file_path in
  let count := readProtoMsgCountToStream proto_file in
  let header := readLayerProtoMsgFromStream count.1 in
  is_open proto_file = false \/ count.2 = None \/ count.2 = Some 0%N
    \/ header.2 = None ->
  exists tr,
    LoadBlocksFromFile file_path strategy (Some layer)
      = Returns (false, layer, tr) /\
    ReadBlockMsg ∉ tr.
Proof.
  intros proto_file count header Hfail. unfold LoadBlocksFromFile.
  fold proto_file.
  destruct (is_open proto_file) eqn:Hopen; simpl.
  2: { eexists; split; [done|without_block_read]. }
  fold count. subst header.
  destruct count as [f1 [n|]]; simpl in *.
  2: { eexists; split; [done|without_block_read]. }
  destruct (n =? 0)%N eqn:Hn.
  { eexists; split; [done|without_block_read]. }
  destruct (readLayerProtoMsgFromStream f1) as [f2 [h|]]; simpl in *.
  2: { eexists; split; [done|without_block_read]. }
  apply N.eqb_neq in Hn.
  destruct Hfail as [?|[?|[?|?]]]; simplify_eq.
Qed.

(** X5.  Both loaders read in the order count, header, blocks, and never
    read more than the [n - 1] block messages that the count [n]
    announces: what a call read is a prefix of that sequence ([n] is
    taken as zero when the count cannot be read). *)
Theorem loaders_read_at_most_announced (file_path : string)
    (layer_ptr : option Ptr) (strategy : BlockMergingStrategy)
    (layer_ptr' : option Layer) :
  let n := default 0%N (readProtoMsgCountToStream
                          (fstream_open file_path)).2 in
  let announced :=
    ReadCount :: ReadLayerMsg
      :: replicate (N.to_nat (n - 1)) ReadBlockMsg in
  reads_of (LoadLayer file_path layer_ptr) `prefix_of` announced /\
  reads_of (LoadBlocksFromFile file_path strategy layer_ptr')
    `prefix_of` announced.
Proof.
  intros n announced. subst n announced.
  unfold LoadLayer, LoadBlocksFromFile. split.
  - destruct layer_ptr as [slot|]; [|apply prefix_nil].
    destruct (is_open (fstream_open file_path)); simpl; [|apply prefix_nil].
    destruct (readProtoMsgCountToStream (fstream_open file_path))
      as [f1 [n|]]; simpl; [|apply prefix_cons, prefix_nil].
    destruct (n =? 0)%N; [apply prefix_cons, prefix_nil|].
    destruct (readLayerProtoMsgFromStream f1) as [f2 [h|]];
      [|apply prefix_cons, prefix_cons, prefix_nil].
    pose proof (read_blocks_reads kProhibit (N.to_nat (n - 1)) f2
                  (Layer_of_proto h)) as Hreads.
    destruct (read_blocks kProhibit (N.to_nat (n - 1)) f2 (Layer_of_proto h))
      as [[ok l] tr'].
    by apply prefix_cons, prefix_cons.
  - destruct layer_ptr' as [layer|]; [|apply prefix_nil].
    destruct (is_open (fstream_open file_path)); simpl; [|apply prefix_nil].
    destruct (readProtoMsgCountToStream (fstream_open file_path))
      as [f1 [n|]]; simpl; [|apply prefix_cons, prefix_nil].
    destruct (n =? 0)%N; [apply prefix_cons, prefix_nil|].
    destruct (readLayerProtoMsgFromStream f1) as [f2 [h|]];
      [|apply prefix_cons, prefix_cons, prefix_nil].
    destruct (isCompatible layer h); simpl;
      [|apply prefix_cons, prefix_cons, prefix_nil].
    pose proof (read_blocks_reads strategy (N.to_nat (n - 1)) f2 layer)
      as Hreads.
    destruct (read_blocks strategy (N.to_nat (n - 1)) f2 layer)
      as [[ok l] tr'].
    by apply prefix_cons, prefix_cons.
Qed.

(** X6.  [LoadLayer] is [LoadOrCreateLayerHeader] followed by
    [LoadBlocksFromFile] under [kProhibit]: when the header of the file is
    read and the layer built from a header is compatible with that header,
    [LoadOrCreateLayerHeader] gives the layer built from the header, and
    appending the file to that layer returns the same [bool], layer and
    reads as [LoadLayer] does; the content of the caller's slot before the
    call plays no part. *)
Theorem LoadLayer_is_header_then_blocks (file_path : string) (slot : Ptr)
    (voxel_size : FloatingPoint) (voxels_per_side : N)
    (f1 f2 : fstream) (n : N) (layer_proto : LayerProto) :
  is_open (fstream_open file_path) = true ->
  readProtoMsgCountToStream (fstream_open file_path) = (f1, Some n) ->
  n <> 0%N ->
  readLayerProtoMsgFromStream f1 = (f2, Some layer_proto) ->
  isCompatible (Layer_of_proto layer_proto) layer_proto = true ->
  LoadOrCreateLayerHeader file_path voxel_size voxels_per_side =
    (Returns (Some (Layer_of_proto layer_proto)),
     [ReadCount; ReadLayerMsg]) /\
  LoadLayer file_path (Some slot) =
    in_slot (LoadBlocksFromFile file_path kProhibit
               (Some (Layer_of_proto layer_proto))).
Proof.
  intros Hopen Hcount Hn Hh Hcompat. apply N.eqb_neq in Hn.
  unfold LoadOrCreateLayerHeader, LoadLayer, LoadBlocksFromFile.
  rewrite Hopen, Hcount. simpl. rewrite Hn, Hh. simpl.
  split; [done|]. rewrite Hcompat. simpl.
  by destruct (read_blocks kProhibit (N.to_nat (n - 1)) f2
                 (Layer_of_proto layer_proto)) as [[ok l] tr].
Qed.

(** X7.  [LoadOrCreateLayerHeader] stops reading at the first failure and
    never reads a block: it reads nothing when the file does not open,
    the count alone when the count cannot be read or is zero, and the
    count and the header otherwise. *)
Theorem LoadOrCreateLayerHeader_reads (file_path : string)
    (voxel_size : FloatingPoint) (voxels_per_side : N) :
  (LoadOrCreateLayerHeader file_path voxel_size voxels_per_side).2 =
    if is_open (fstream_open file_path) then
      match (readProtoMsgCountToStream (fstream_open file_path)).2 with
      | Some n => if (n =? 0)%N then [ReadCount]
                  else [ReadCount; ReadLayerMsg]
      | None => [ReadCount]
      end
    else [].
Proof.
  unfold LoadOrCreateLayerHeader.
  destruct (is_open (fstream_open file_path)); simpl; [|done].
  destruct (readProtoMsgCountToStream (fstream_open file_path))
    as [f1 [n|]]; simpl; [|done].
  destruct (n =? 0)%N; simpl; [done|].
  by destruct (readLayerProtoMsgFromStream f1) as [f2 [h|]].
Qed.

(** X8.  A file with a count of one and a header has no block to read:
    [LoadLayer] returns [true] with the layer built from the header, and
    [LoadBlocksFromFile], for every strategy and every layer that is
    compatible with the header, returns [true] and leaves the layer as it
    was. *)
Theorem loaders_header_only_file (file_path : string) (slot : Ptr)
    (f1 f2 : fstream) (layer_proto : LayerProto) :
  is_open (fstream_open file_path) = true ->
  readProtoMsgCountToStream (fstream_open file_path) = (f1, Some 1%N) ->
  readLayerProtoMsgFromStream f1 = (f2, Some layer_proto) ->
  LoadLayer file_path (Some slot) =
    Returns (true, Some (Layer_of_proto layer_proto),
             [ReadCount; ReadLayerMsg]) /\
  forall strategy layer,
    isCompatible layer layer_proto = true ->
    LoadBlocksFromFile file_path strategy (Some layer) =
      Returns (true, layer, [ReadCount; ReadLayerMsg]).
Proof.
  intros Hopen Hcount Hh. unfold LoadLayer, LoadBlocksFromFile.
  rewrite Hopen, Hcount. simpl. rewrite Hh. simpl.
  split; [done|]. intros strategy layer Hcompat. by rewrite Hcompat.
Qed.

End loaders_more.

(* ===================================================================== *)
(** * Part IV : the parameters of the skeleton generator                  *)
(* ===================================================================== *)

Section generator_parameters.

Import Generator.

Context {float Skeleton SparseSkeletonGraph VoxelTemplateMatcher
         NeighborTools EsdfLayerPtr SkeletonLayerPtr : Type}.

#[local] Abbreviation SkeletonGenerator :=
  (Generator.SkeletonGenerator float Skeleton SparseSkeletonGraph
     VoxelTemplateMatcher NeighborTools EsdfLayerPtr SkeletonLayerPtr).

Implicit Types (g : SkeletonGenerator) (cs : list (SetterCall float)).

(** The last element of [x :: l], seen from the default. *)
Lemma default_last_cons {A : Type} (d x : A) (l : list A) :
  default d (last (x :: l)) = default x (last l).
Proof. rewrite last_cons. by destruct (last l). Qed.

(** X10.  After any run of setter calls each getter returns the argument
    of the last call of its own setter, and the value the generator had
    before the run when its setter was not called: the three parameters
    do not interfere. *)
Theorem getters_after_setter_calls cs g :
  getMinSeparationAngle (calls cs g) =
    default (getMinSeparationAngle g) (last (angles_set cs)) /\
  getGenerateByLayerNeighbors (calls cs g) =
    default (getGenerateByLayerNeighbors g) (last (flags_set cs)) /\
  getNumNeighborsForEdge (calls cs g) =
    default (getNumNeighborsForEdge g) (last (counts_set cs)).
Proof.
  revert g. unfold calls.
  induction cs as [|c cs IH]; intros g; [done|].
  destruct (IH (call g c)) as (Hangle & Hflag & Hcount).
  cbn [foldl]. rewrite Hangle, Hflag, Hcount.
  destruct c as [a|b|n]; unfold angles_set, flags_set, counts_set;
    cbn -[last]; rewrite ?default_last_cons; done.
Qed.

(** X11.  No run of setter calls touches the rest of the generator: the
    skeleton, the sparse graph, the ESDF layer pointer, the skeleton
    layer, the vertex pruning radius, the voxels per side, the template
    matchers and the neighbour tools are as before the run. *)
Theorem setter_calls_keep_the_rest cs g :
  getSkeleton (calls cs g) = getSkeleton g /\
  getSparseGraph (calls cs g) = getSparseGraph g /\
  esdf_layer_ (calls cs g) = esdf_layer_ g /\
  skeleton_layer_ (calls cs g) = skeleton_layer_ g /\
  vertex_pruning_radius_ (calls cs g) = vertex_pruning_radius_ g /\
  esdf_voxels_per_side_ (calls cs g) = esdf_voxels_per_side_ g /\
  pruning_template_matcher_ (calls cs g) = pruning_template_matcher_ g /\
  corner_template_matcher_ (calls cs g) = corner_template_matcher_ g /\
  neighbor_tools_ (calls cs g) = neighbor_tools_ g.
Proof.
  revert g. unfold calls.
  induction cs as [|c cs IH]; intros g; [done|].
  cbn [foldl].
  destruct (IH (call g c)) as (-> & -> & -> & -> & -> & -> & -> & -> & ->).
  by destruct c.
Qed.

End generator_parameters.

(* ===================================================================== *)
(** * Part V : the further results on the files of the fixtures           *)
(* ===================================================================== *)

Section more_fixture_runs.

Import Model Fixture MoreFixture.

(** A block that follows the announced ones is not read: [long_tail]
    announces one block and carries two. *)
Example LoadLayer_long_tail :
  LoadLayer (H := esdf_io more_files) "long_tail.vxblx" (Some None) =
    Returns (true, Some layer_a, [ReadCount; ReadLayerMsg; ReadBlockMsg]).
Proof. vm_compute. reflexivity. Qed.

(** X1, witness: the successful load of [two_blocks.vxblx]. *)
Lemma LoadLayer_true_iff_witness :
  exists f1 n f2 layer_proto f3 layer,
    @is_open (esdf_io disk) (@fstream_open (esdf_io disk) "two_blocks.vxblx")
      = true /\
    @readProtoMsgCountToStream (esdf_io disk)
      (@fstream_open (esdf_io disk) "two_blocks.vxblx") = (f1, Some n) /\
    n <> 0%N /\
    @readLayerProtoMsgFromStream (esdf_io disk) f1 = (f2, Some layer_proto) /\
    @blocks_added (esdf_io disk) kProhibit f2
      (@Layer_of_proto (esdf_io disk) layer_proto) (N.to_nat (n - 1)) f3 layer
    /\
    Some layer_ab = Some layer /\
    [ReadCount; ReadLayerMsg; ReadBlockMsg; ReadBlockMsg] =
      ReadCount :: ReadLayerMsg :: replicate (N.to_nat (n - 1)) ReadBlockMsg.
Proof.
  apply (proj1 (@LoadLayer_true_iff (esdf_io disk) "two_blocks.vxblx" None
                  (Some layer_ab)
                  [ReadCount; ReadLayerMsg; ReadBlockMsg; ReadBlockMsg])).
  vm_compute. reflexivity.
Defined.

(** X2, witness: the failed load of [truncated.vxblx] is of the second
    kind, with one block inserted. *)
Lemma LoadLayer_false_cases_witness :
  LoadLayer (H := esdf_io disk) "truncated.vxblx" (Some None) =
    Returns (false, Some layer_a,
             [ReadCount; ReadLayerMsg; ReadBlockMsg; ReadBlockMsg]) /\
  ((Some layer_a = None /\
    (ReadBlockMsg ∉ [ReadCount; ReadLayerMsg; ReadBlockMsg; ReadBlockMsg]) /\
    (@is_open (esdf_io disk)
       (@fstream_open (esdf_io disk) "truncated.vxblx") = false \/
     (@readProtoMsgCountToStream (esdf_io disk)
        (@fstream_open (esdf_io disk) "truncated.vxblx")).2 = None \/
     (@readProtoMsgCountToStream (esdf_io disk)
        (@fstream_open (esdf_io disk) "truncated.vxblx")).2 = Some 0%N \/
     (@readLayerProtoMsgFromStream (esdf_io disk)
        (@readProtoMsgCountToStream (esdf_io disk)
           (@fstream_open (esdf_io disk) "truncated.vxblx")).1).2 = None))
   \/
   (exists f1 n f2 layer_proto k f_k layer_k layer_end,
       @readProtoMsgCountToStream (esdf_io disk)
         (@fstream_open (esdf_io disk) "truncated.vxblx") = (f1, Some n) /\
       @readLayerProtoMsgFromStream (esdf_io disk) f1
         = (f2, Some layer_proto) /\
       @blocks_added (esdf_io disk) kProhibit f2
         (@Layer_of_proto (esdf_io disk) layer_proto) k f_k layer_k /\
       k < N.to_nat (n - 1) /\
       @block_fails (esdf_io disk) kProhibit f_k layer_k layer_end /\
       Some layer_a = Some layer_end /\
       [ReadCount; ReadLayerMsg; ReadBlockMsg; ReadBlockMsg] =
         ReadCount :: ReadLayerMsg :: replicate (S k) ReadBlockMsg)).
Proof.
  assert (LoadLayer (H := esdf_io disk) "truncated.vxblx" (Some None) =
            Returns (false, Some layer_a,
                     [ReadCount; ReadLayerMsg; ReadBlockMsg; ReadBlockMsg]))
    as Hrun by (vm_compute; reflexivity).
  split; [exact Hrun|].
  exact (@LoadLayer_false_cases (esdf_io disk) "truncated.vxblx" None
           (Some layer_a) _ Hrun).
Defined.

(** X3, witness: appending [duplicate.vxblx] under [kReplace]. *)
Lemma LoadBlocksFromFile_true_iff_witness :
  exists f1 n f2 layer_proto f3,
    @is_open (esdf_io disk) (@fstream_open (esdf_io disk) "duplicate.vxblx")
      = true /\
    @readProtoMsgCountToStream (esdf_io disk)
      (@fstream_open (esdf_io disk) "duplicate.vxblx") = (f1, Some n) /\
    n <> 0%N /\
    @readLayerProtoMsgFromStream (esdf_io disk) f1 = (f2, Some layer_proto) /\
    @isCompatible (esdf_io disk) layer_a layer_proto = true /\
    @blocks_added (esdf_io disk) kReplace f2 layer_a (N.to_nat (n - 1)) f3
      (with_block (0, 0, 0)%Z (free_space (Q2Qc 0.9)) layer_ab) /\
    ReadCount :: ReadLayerMsg :: replicate 3 ReadBlockMsg =
      ReadCount :: ReadLayerMsg :: replicate (N.to_nat (n - 1)) ReadBlockMsg.
Proof.
  apply (proj1 (@LoadBlocksFromFile_true_iff (esdf_io disk)
                  "duplicate.vxblx" kReplace layer_a
                  (with_block (0, 0, 0)%Z (free_space (Q2Qc 0.9)) layer_ab)
                  (ReadCount :: ReadLayerMsg :: replicate 3 ReadBlockMsg))).
  vm_compute. reflexivity.
Defined.

(** X4, witness: a path that cannot be opened, and a file with a zero
    count; the target keeps its two blocks. *)
Lemma LoadBlocksFromFile_early_failure_keeps_layer_witness :
  @is_open (esdf_io disk) (@fstream_open (esdf_io disk) "missing.vxblx")
    = false /\
  (exists tr,
      LoadBlocksFromFile (H := esdf_io disk) "missing.vxblx" kMerge
                         (Some layer_ab) = Returns (false, layer_ab, tr) /\
      ReadBlockMsg ∉ tr) /\
  (exists tr,
      LoadBlocksFromFile (H := esdf_io disk) "no_messages.vxblx" kMerge
                         (Some layer_ab) = Returns (false, layer_ab, tr) /\
      ReadBlockMsg ∉ tr).
Proof.
  split; [reflexivity|]. split.
  - apply (@LoadBlocksFromFile_early_failure_keeps_layer (esdf_io disk)
             "missing.vxblx" kMerge layer_ab).
    left. reflexivity.
  - apply (@LoadBlocksFromFile_early_failure_keeps_layer (esdf_io disk)
             "no_messages.vxblx" kMerge layer_ab).
    right. right. left. reflexivity.
Defined.

(** X6, witness: [two_blocks.vxblx], with a slot that already holds a
    layer. *)
Lemma LoadLayer_is_header_then_blocks_witness :
  @isCompatible (esdf_io disk)
    (@Layer_of_proto (esdf_io disk) (esdf_metadata fine))
    (esdf_metadata fine) = true /\
  LoadOrCreateLayerHeader (H := esdf_io disk) "two_blocks.vxblx" coarse 4 =
    (Returns (Some (@Layer_of_proto (esdf_io disk) (esdf_metadata fine))),
     [ReadCount; ReadLayerMsg]) /\
  LoadLayer (H := esdf_io disk) "two_blocks.vxblx" (Some (Some layer_a)) =
    in_slot (LoadBlocksFromFile (H := esdf_io disk) "two_blocks.vxblx"
               kProhibit
               (Some (@Layer_of_proto (esdf_io disk) (esdf_metadata fine)))).
Proof.
  split; [reflexivity|].
  eapply (@LoadLayer_is_header_then_blocks (esdf_io disk)
            "two_blocks.vxblx" (Some layer_a) coarse 4 _ _ 3
            (esdf_metadata fine)).
  - reflexivity.
  - reflexivity.
  - discriminate.
  - reflexivity.
  - reflexivity.
Defined.

(** X8, witness: [header_only.vxblx]; a layer with two blocks is left as
    it was under [kReplace]. *)
Lemma loaders_header_only_file_witness :
  LoadLayer (H := esdf_io more_files) "header_only.vxblx" (Some None) =
    Returns (true, Some empty_layer, [ReadCount; ReadLayerMsg]) /\
  LoadBlocksFromFile (H := esdf_io more_files) "header_only.vxblx" kReplace
                     (Some layer_ab) =
    Returns (true, layer_ab, [ReadCount; ReadLayerMsg]).
Proof.
  pose proof (@loaders_header_only_file (esdf_io more_files)
                "header_only.vxblx" None (Some [header fine]) (Some [])
                (esdf_metadata fine) eq_refl eq_refl eq_refl)
    as [Hload Happend].
  split; [exact Hload|].
  apply (Happend kReplace layer_ab). reflexivity.
Defined.

End more_fixture_runs.
